(** * Security configuration loader of the accelerator

    A shallow embedding of
    [source/packages/@aws-accelerator/config/lib/security-config.ts]:
    the schema declarations of [SecurityConfigTypes], the configuration
    classes with their field initialisers, and the class [SecurityConfig]
    with its constructor, [getDelegatedAccountName], [load] and
    [loadFromString].

    JavaScript values are an inductive type, objects are finite maps from
    property names to values, and the code that logs and throws runs in a
    small monad whose state is the output of the module's logger. *)

From Stdlib Require Import PrimFloat.
From stdpp Require Import base option strings gmap list pretty.

Local Open Scope string_scope.

(* ===================================================================== *)
(** ** JavaScript values *)

(** What [yaml.load] hands to the schema and what the configuration
    classes hold.  A number is an IEEE 754 double, as in JavaScript. *)
#[warnings="-register-all"]
Inductive JsValue : Type :=
  | JUndefined
  | JNull
  | JBool (b : bool)
  | JNum (n : float)
  | JStr (s : string)
  | JArr (items : list JsValue)
  | JObj (fields : gmap string JsValue).

Abbreviation JsObject := (gmap string JsValue).

(** Object literal [{ k1: v1, ..., kn: vn }]. *)
Definition obj (props : list (string * JsValue)) : JsValue :=
  JObj (list_to_map props).

(** ToBoolean, the test of [if (values)]: [undefined], [null], [false],
    [0], [-0], [NaN] and the empty string are falsy. *)
Definition truthy (v : JsValue) : bool :=
  match v with
  | JUndefined | JNull => false
  | JBool b => b
  | JNum n => negb (PrimFloat.eqb n 0) && PrimFloat.eqb n n
  | JStr s => negb (String.eqb s "")
  | JArr _ | JObj _ => true
  end.

(** Reading the data property [k] of [v] where [v] is known not to be
    [undefined] or [null]: an absent property reads as [undefined].  The
    property names used here are the field names of the configuration
    classes, never an array index, [length] or a name inherited from a
    prototype. *)
Definition field (v : JsValue) (k : string) : JsValue :=
  match v with
  | JObj m => default JUndefined (m !! k)
  | _ => JUndefined
  end.

(** [v.k1.k2...kn] with the reading of [field]. *)
Definition field_path (v : JsValue) (ks : list string) : JsValue :=
  foldl field v ks.

(** The own enumerable string-keyed properties of ToObject(source), what
    [Object.assign] copies: the fields of an object, the elements of an
    array under their indices, the characters of a string under their
    indices, and nothing for [undefined], [null], a number or a boolean. *)
Definition own_enumerable (source : JsValue) : JsObject :=
  match source with
  | JObj m => m
  | JArr items => list_to_map (imap (λ i x, (pretty i, x)) items)
  | JStr s =>
      list_to_map
        (imap (λ i c, (pretty i, JStr (String c EmptyString)))
              (String.list_ascii_of_string s))
  | _ => ∅
  end.

(** [Object.assign(target, source)]: every own enumerable property of
    [source] is set on [target], the other properties of [target] stay. *)
Definition Object_assign (target : JsObject) (source : JsValue) : JsObject :=
  own_enumerable source ∪ target.

(* ===================================================================== *)
(** ** Thrown errors, the logger and the effect monad *)

(** An error object, as far as this module looks at it: its [name] and
    its [message]. *)
Record JsError : Type := mkError { name : string; message : string }.

(** [new Error(msg)]. *)
Definition Error (msg : string) : JsError := mkError "Error" msg.

(** [TypeError], raised by a property read on [undefined] or [null]. *)
Definition TypeError (msg : string) : JsError := mkError "TypeError" msg.

(** The template literal [`${e}`] on an error object, that is
    [Error.prototype.toString]. *)
Definition toString (e : JsError) : string :=
  if String.eqb (name e) "" then message e
  else if String.eqb (message e) "" then name e
  else name e ++ ": " ++ message e.

(** One line written by the logger of [createLogger(['security-config'])];
    the module only calls [logger.error]. *)
Inductive LogEntry : Type :=
  | error_entry (msg : string).

(** How a JavaScript expression completes. *)
Inductive Completion (A : Type) : Type :=
  | Normal (a : A)
  | Thrown (e : JsError).
Arguments Normal {A} a.
Arguments Thrown {A} e.

(** A computation that may log and may throw. *)
Definition Js (A : Type) : Type := list LogEntry → Completion A * list LogEntry.

#[global] Instance Js_ret : MRet Js := λ A a log, (Normal a, log).

#[global] Instance Js_bind : MBind Js := λ A B k m log,
  match m log with
  | (Normal a, log') => k a log'
  | (Thrown e, log') => (Thrown e, log')
  end.

Definition throw {A : Type} (e : JsError) : Js A := λ log, (Thrown e, log).

(** [try { body } catch (e) { handler }]. *)
Definition try_catch {A : Type} (body : Js A) (handler : JsError → Js A) : Js A :=
  λ log,
    match body log with
    | (Normal a, log') => (Normal a, log')
    | (Thrown e, log') => handler e log'
    end.

(** A call into a function that returns or throws and logs nothing. *)
Definition call {A : Type} (r : JsError + A) : Js A :=
  match r with
  | inr a => mret a
  | inl e => throw e
  end.

(** [logger.error(msg)]. *)
Definition logger_error (msg : string) : Js unit :=
  λ log, (Normal tt, (log ++ [error_entry msg])%list).

(** The property read [v.k] as an expression: it throws a [TypeError] on
    [undefined] and [null]. *)
Definition get_property (v : JsValue) (k : string) : Js JsValue :=
  match v with
  | JUndefined =>
      throw (TypeError ("Cannot read properties of undefined (reading '" ++ k ++ "')"))
  | JNull =>
      throw (TypeError ("Cannot read properties of null (reading '" ++ k ++ "')"))
  | _ => mret (field v k)
  end.

(* ===================================================================== *)
(** ** The schema combinators of [./common-types] *)

Module t.

(** The codecs that [SecurityConfigTypes] is built from, as syntax: one
    constructor for each combinator of [common-types] the schema uses. *)
#[warnings="-register-all"]
Inductive Codec : Type :=
  | boolean
  | number
  | string
  | nonEmptyString
  | enums (name : String.string) (values : list String.string)
  | optional (wrapped : Codec)
  | array (item : Codec)
  | dictionary (key : Codec) (value : Codec)
  | interface (props : list (String.string * Codec)).

(** The codecs that the schema takes ready-made from [common-types]:
    [t.region], [t.deploymentTargets], [t.shareTargets],
    [t.lifecycleRuleConfig] and [t.tag].  Their declarations are not in
    [security-config.ts], so the schema is stated over any choice of
    them. *)
Record CommonTypes : Type := {
  region : Codec;
  deploymentTargets : Codec;
  shareTargets : Codec;
  lifecycleRuleConfig : Codec;
  tag : Codec;
}.

(** Modelled from the spec: [common-types.ts], which defines how a codec
    checks a value, is not among the sources.  The spec names the
    invariants the schema enforces: required and optional fields, enum
    membership and array element typing, with the failures aggregated.
    [validate c path u] is the list of the places in [u], starting at
    [path], that break [c]; [u] matches [c] when the list is empty.
    A field of an interface is read from the object, an absent one being
    [undefined]; an optional codec accepts [undefined] and otherwise
    asks the wrapped codec; an enum accepts the strings of its list. *)
Fixpoint validate (c : Codec) (path : String.string) (u : JsValue)
    : list String.string :=
  match c with
  | boolean => match u with JBool _ => [] | _ => [path] end
  | number => match u with JNum _ => [] | _ => [path] end
  | string => match u with JStr _ => [] | _ => [path] end
  | nonEmptyString =>
      match u with
      | JStr s => if decide (s = "") then [path] else []
      | _ => [path]
      end
  | enums _ values =>
      match u with
      | JStr s => if decide (s ∈ values) then [] else [path]
      | _ => [path]
      end
  | optional wrapped =>
      match u with
      | JUndefined => []
      | _ => validate wrapped path u
      end
  | array item =>
      match u with
      | JArr items =>
          concat (imap (λ i x, validate item (path ++ "/" ++ pretty i) x) items)
      | _ => [path]
      end
  | dictionary key value =>
      match u with
      | JObj m =>
          concat (map (λ kv, (validate key (path ++ "/" ++ kv.1) (JStr kv.1)
                              ++ validate value (path ++ "/" ++ kv.1) kv.2)%list)
                      (map_to_list m))
      | _ => [path]
      end
  | interface props =>
      match u with
      | JObj _ =>
          concat (map (λ p, validate p.2 (path ++ "/" ++ p.1) (field u p.1)) props)
      | _ => [path]
      end
  end.

(** Modelled from the spec: [t.parse] is declared in [common-types.ts],
    which is not among the sources.  A value that matches the codec is
    handed back as it is; for any other value an [Error] is thrown whose
    message lists the failing places. *)
Definition parse (c : Codec) (content : JsValue) : JsError + JsValue :=
  match validate c "" content with
  | [] => inr content
  | errors => inl (Error ("invalid value at: " ++ String.concat ", " errors))
  end.

End t.

(* ===================================================================== *)
(** ** [SecurityConfigTypes] *)

Module SecurityConfigTypes.
Section Types.
Context (ct : t.CommonTypes).

Definition snsSubscriptionConfig : t.Codec := t.interface [
("level", t.nonEmptyString);
("email", t.nonEmptyString)
].

Definition s3PublicAccessBlockConfig : t.Codec := t.interface [
("enable", t.boolean);
("excludeAccounts", t.optional (t.array t.string))
].

Definition scpRevertChangesConfig : t.Codec := t.interface [
("enable", t.boolean);
("snsTopicName", t.optional t.nonEmptyString)
].

Definition keyConfig : t.Codec := t.interface [
("name", t.nonEmptyString);
("alias", t.optional t.nonEmptyString);
("policy", t.optional t.nonEmptyString);
("description", t.optional t.nonEmptyString);
("enableKeyRotation", t.optional t.boolean);
("enabled", t.optional t.boolean);
("removalPolicy", t.optional (t.enums "KeyRemovalPolicy" ["destroy"; "retain"; "snapshot"]));
("deploymentTargets", t.deploymentTargets ct)
].

Definition macieConfig : t.Codec := t.interface [
("enable", t.boolean);
("excludeRegions", t.optional (t.array (t.region ct)));
("policyFindingsPublishingFrequency",
   t.enums "FrequencyType" ["FIFTEEN_MINUTES"; "ONE_HOUR"; "SIX_HOURS"]);
("publishSensitiveDataFindings", t.boolean);
("lifecycleRules", t.optional (t.array (t.lifecycleRuleConfig ct)))
].

Definition guardDutyS3ProtectionConfig : t.Codec := t.interface [
("enable", t.boolean);
("excludeRegions", t.optional (t.array (t.region ct)))
].

Definition guardDutyEksProtectionConfig : t.Codec := t.interface [
("enable", t.boolean);
("excludeRegions", t.optional (t.array (t.region ct)))
].

Definition guardDutyExportFindingsConfig : t.Codec := t.interface [
("enable", t.boolean);
("overrideExisting", t.optional t.boolean);
("destinationType", t.enums "DestinationType" ["S3"]);
("exportFrequency",
   t.enums "ExportFrequencyType" ["FIFTEEN_MINUTES"; "ONE_HOUR"; "SIX_HOURS"])
].

Definition guardDutyConfig : t.Codec := t.interface [
("enable", t.boolean);
("excludeRegions", t.optional (t.array (t.region ct)));
("s3Protection", guardDutyS3ProtectionConfig);
("eksProtection", t.optional guardDutyEksProtectionConfig);
("exportConfiguration", guardDutyExportFindingsConfig);
("lifecycleRules", t.optional (t.array (t.lifecycleRuleConfig ct)))
].

Definition auditManagerDefaultReportsDestinationConfig : t.Codec := t.interface [
("enable", t.boolean);
("destinationType", t.enums "DestinationType" ["S3"])
].

Definition auditManagerConfig : t.Codec := t.interface [
("enable", t.boolean);
("excludeRegions", t.optional (t.array (t.region ct)));
("defaultReportsConfiguration", auditManagerDefaultReportsDestinationConfig);
("lifecycleRules", t.optional (t.array (t.lifecycleRuleConfig ct)))
].

Definition detectiveConfig : t.Codec := t.interface [
("enable", t.boolean);
("excludeRegions", t.optional (t.array (t.region ct)))
].

Definition securityHubStandardConfig : t.Codec := t.interface [
("name", t.enums "ExportFrequencyType" [
   "AWS Foundational Security Best Practices v1.0.0";
   "CIS AWS Foundations Benchmark v1.2.0";
   "CIS AWS Foundations Benchmark v1.4.0";
   "NIST Special Publication 800-53 Revision 5";
   "PCI DSS v3.2.1"
 ]);
("deploymentTargets", t.optional (t.deploymentTargets ct));
("enable", t.boolean);
("controlsToDisable", t.optional (t.array t.nonEmptyString))
].

Definition securityHubConfig : t.Codec := t.interface [
("enable", t.boolean);
("regionAggregation", t.optional t.boolean);
("snsTopicName", t.optional t.string);
("notificationLevel", t.optional t.string);
("excludeRegions", t.optional (t.array (t.region ct)));
("standards", t.array securityHubStandardConfig)
].

Definition ebsDefaultVolumeEncryptionConfig : t.Codec := t.interface [
("enable", t.boolean);
("kmsKey", t.optional t.nonEmptyString);
("excludeRegions", t.optional (t.array (t.region ct)))
].

Definition documentConfig : t.Codec := t.interface [
("name", t.nonEmptyString);
("template", t.nonEmptyString)
].

Definition documentSetConfig : t.Codec := t.interface [
("shareTargets", t.shareTargets ct);
("documents", t.array documentConfig)
].

Definition ssmAutomationConfig : t.Codec := t.interface [
("excludeRegions", t.optional (t.array (t.region ct)));
("documentSets", t.array documentSetConfig)
].

Definition centralSecurityServicesConfig : t.Codec := t.interface [
("delegatedAdminAccount", t.nonEmptyString);
("ebsDefaultVolumeEncryption", ebsDefaultVolumeEncryptionConfig);
("s3PublicAccessBlock", s3PublicAccessBlockConfig);
("scpRevertChangesConfig", t.optional scpRevertChangesConfig);
("macie", macieConfig);
("guardduty", guardDutyConfig);
("auditManager", t.optional auditManagerConfig);
("detective", t.optional detectiveConfig);
("securityHub", securityHubConfig);
("ssmAutomation", ssmAutomationConfig)
].

Definition keyManagementServiceConfig : t.Codec := t.interface [
("keySets", t.array keyConfig)
].

Definition accessAnalyzerConfig : t.Codec := t.interface [
("enable", t.boolean)
].

Definition iamPasswordPolicyConfig : t.Codec := t.interface [
("allowUsersToChangePassword", t.boolean);
("hardExpiry", t.boolean);
("requireUppercaseCharacters", t.boolean);
("requireLowercaseCharacters", t.boolean);
("requireSymbols", t.boolean);
("requireNumbers", t.boolean);
("minimumPasswordLength", t.number);
("passwordReusePrevention", t.number);
("maxPasswordAge", t.number)
].

Definition customRuleLambdaType : t.Codec := t.interface [
("sourceFilePath", t.nonEmptyString);
("handler", t.nonEmptyString);
("runtime", t.nonEmptyString);
("rolePolicyFile", t.nonEmptyString);
("timeout", t.optional t.number)
].

Definition triggeringResourceType : t.Codec := t.interface [
("lookupType", t.enums "ResourceLookupType" ["ResourceId"; "Tag"; "ResourceTypes"]);
("lookupKey", t.nonEmptyString);
("lookupValue", t.array t.nonEmptyString)
].

Definition customRuleConfigType : t.Codec := t.interface [
("lambda", customRuleLambdaType);
("periodic", t.optional t.boolean);
("maximumExecutionFrequency", t.enums "ExecutionFrequency" [
   "One_Hour"; "Three_Hours"; "Six_Hours"; "Twelve_Hours"; "TwentyFour_Hours"
 ]);
("configurationChanges", t.optional t.boolean);
("triggeringResources", triggeringResourceType)
].

Definition remediationParametersConfigType : t.Codec := t.interface [
("name", t.nonEmptyString);
("value", t.nonEmptyString);
("type", t.enums "ParameterDataType" ["String"; "StringList"])
].

Definition configRuleRemediationType : t.Codec := t.interface [
("rolePolicyFile", t.nonEmptyString);
("automatic", t.boolean);
("targetId", t.nonEmptyString);
("targetAccountName", t.optional t.nonEmptyString);
("targetVersion", t.optional t.nonEmptyString);
("targetDocumentLambda", t.optional customRuleLambdaType);
("retryAttemptSeconds", t.optional t.number);
("maximumAutomaticAttempts", t.optional t.number);
("parameters", t.optional (t.array remediationParametersConfigType))
].

Definition configRule : t.Codec := t.interface [
("name", t.nonEmptyString);
("description", t.optional t.nonEmptyString);
("identifier", t.optional t.nonEmptyString);
("inputParameters", t.optional (t.dictionary t.nonEmptyString t.nonEmptyString));
("complianceResourceTypes", t.optional (t.array t.nonEmptyString));
("type", t.optional t.nonEmptyString);
("customRule", t.optional customRuleConfigType);
("remediation", t.optional configRuleRemediationType);
("tags", t.optional (t.array (t.tag ct)))
].

Definition awsConfigRuleSet : t.Codec := t.interface [
("deploymentTargets", t.deploymentTargets ct);
("rules", t.array configRule)
].

Definition awsConfigAggregation : t.Codec := t.interface [
("enable", t.boolean);
("delegatedAdminAccount", t.optional t.nonEmptyString)
].

Definition awsConfig : t.Codec := t.interface [
("enableConfigurationRecorder", t.boolean);
("enableDeliveryChannel", t.optional t.boolean);
("overrideExisting", t.optional t.boolean);
("aggregation", t.optional awsConfigAggregation);
("ruleSets", t.array awsConfigRuleSet)
].

Definition metricConfig : t.Codec := t.interface [
("filterName", t.nonEmptyString);
("logGroupName", t.nonEmptyString);
("filterPattern", t.nonEmptyString);
("metricNamespace", t.nonEmptyString);
("metricName", t.nonEmptyString);
("metricValue", t.nonEmptyString)
].

Definition metricSetConfig : t.Codec := t.interface [
("regions", t.optional (t.array t.nonEmptyString));
("deploymentTargets", t.deploymentTargets ct);
("metrics", t.array metricConfig)
].

Definition alarmConfig : t.Codec := t.interface [
("alarmName", t.nonEmptyString);
("alarmDescription", t.nonEmptyString);
("snsAlertLevel", t.optional t.nonEmptyString);
("snsTopicName", t.optional t.nonEmptyString);
("metricName", t.nonEmptyString);
("namespace", t.nonEmptyString);
("comparisonOperator", t.nonEmptyString);
("evaluationPeriods", t.number);
("period", t.number);
("statistic", t.nonEmptyString);
("threshold", t.number);
("treatMissingData", t.nonEmptyString)
].

Definition alarmSetConfig : t.Codec := t.interface [
("regions", t.optional (t.array t.nonEmptyString));
("deploymentTargets", t.deploymentTargets ct);
("alarms", t.array alarmConfig)
].

Definition encryptionConfig : t.Codec := t.interface [
("kmsKeyName", t.optional t.nonEmptyString);
("kmsKeyArn", t.optional t.nonEmptyString);
("useLzaManagedKey", t.optional t.boolean)
].

Definition logGroupsConfig : t.Codec := t.interface [
("logGroupName", t.nonEmptyString);
("logRetentionInDays", t.number);
("terminationProtected", t.optional t.boolean);
("encryption", t.optional encryptionConfig);
("deploymentTargets", t.deploymentTargets ct)
].

Definition cloudWatchConfig : t.Codec := t.interface [
("metricSets", t.array metricSetConfig);
("alarmSets", t.array alarmSetConfig);
("logGroups", t.optional (t.array logGroupsConfig))
].

Definition securityConfig : t.Codec := t.interface [
("centralSecurityServices", centralSecurityServicesConfig);
("accessAnalyzer", accessAnalyzerConfig);
("iamPasswordPolicy", iamPasswordPolicyConfig);
("awsConfig", awsConfig);
("cloudWatch", cloudWatchConfig);
("keyManagementService", t.optional keyManagementServiceConfig)
].

End Types.
End SecurityConfigTypes.

(* ===================================================================== *)
(** ** The configuration classes

    Each definition is the object that [new C()] builds from the field
    initialisers of class [C].  A field initialised with [undefined] is a
    property holding [undefined]; a field declared without an initialiser
    is left out, and reads as [undefined] all the same. *)

Definition S3PublicAccessBlockConfig : JsValue := obj [
  ("enable", JBool false);
  ("excludeAccounts", JArr [])
].

Definition ScpRevertChangesConfig : JsValue := obj [
  ("enable", JBool false);
  ("snsTopicName", JUndefined)
].

Definition KeyManagementServiceConfig : JsValue := obj [
  ("keySets", JArr [])
].

Definition MacieConfig : JsValue := obj [
  ("enable", JBool false);
  ("excludeRegions", JArr []);
  ("policyFindingsPublishingFrequency", JStr "FIFTEEN_MINUTES");
  ("publishSensitiveDataFindings", JBool true);
  ("lifecycleRules", JUndefined)
].

Definition GuardDutyS3ProtectionConfig : JsValue := obj [
  ("enable", JBool false);
  ("excludeRegions", JArr [])
].

Definition GuardDutyExportFindingsConfig : JsValue := obj [
  ("enable", JBool false);
  ("overrideExisting", JBool false);
  ("destinationType", JStr "S3");
  ("exportFrequency", JStr "FIFTEEN_MINUTES")
].

Definition GuardDutyConfig : JsValue := obj [
  ("enable", JBool false);
  ("excludeRegions", JArr []);
  ("s3Protection", GuardDutyS3ProtectionConfig);
  ("eksProtection", JUndefined);
  ("exportConfiguration", GuardDutyExportFindingsConfig);
  ("lifecycleRules", JUndefined)
].

Definition SecurityHubConfig : JsValue := obj [
  ("enable", JBool false);
  ("regionAggregation", JBool false);
  ("snsTopicName", JUndefined);
  ("notificationLevel", JUndefined);
  ("excludeRegions", JArr []);
  ("standards", JArr [])
].

Definition EbsDefaultVolumeEncryptionConfig : JsValue := obj [
  ("enable", JBool false);
  ("kmsKey", JUndefined);
  ("excludeRegions", JArr [])
].

Definition SsmAutomationConfig : JsValue := obj [
  ("excludeRegions", JArr []);
  ("documentSets", JArr [])
].

Definition CentralSecurityServicesConfig : JsValue := obj [
  ("delegatedAdminAccount", JStr "Audit");
  ("ebsDefaultVolumeEncryption", EbsDefaultVolumeEncryptionConfig);
  ("s3PublicAccessBlock", S3PublicAccessBlockConfig);
  ("scpRevertChangesConfig", ScpRevertChangesConfig);
  ("snsSubscriptions", JArr []);
  ("macie", MacieConfig);
  ("guardduty", GuardDutyConfig);
  ("auditManager", JUndefined);
  ("detective", JUndefined);
  ("securityHub", SecurityHubConfig);
  ("ssmAutomation", SsmAutomationConfig)
].

Definition AccessAnalyzerConfig : JsValue := obj [
  ("enable", JBool false)
].

Definition IamPasswordPolicyConfig : JsValue := obj [
  ("allowUsersToChangePassword", JBool true);
  ("hardExpiry", JBool false);
  ("requireUppercaseCharacters", JBool true);
  ("requireLowercaseCharacters", JBool true);
  ("requireSymbols", JBool true);
  ("requireNumbers", JBool true);
  ("minimumPasswordLength", JNum 14);
  ("passwordReusePrevention", JNum 24);
  ("maxPasswordAge", JNum 90)
].

(** [enableDeliveryChannel], [overrideExisting] and [aggregation] are
    declared without an initialiser. *)
Definition AwsConfig : JsValue := obj [
  ("enableConfigurationRecorder", JBool true);
  ("ruleSets", JArr [])
].

Definition CloudWatchConfig : JsValue := obj [
  ("metricSets", JArr []);
  ("alarmSets", JArr []);
  ("logGroups", JUndefined)
].

(* ===================================================================== *)
(** ** [SecurityConfig] *)

Module SecurityConfig.

(** Security configuration file name. *)
Definition FILENAME : string := "security-config.yaml".

(** The instance after its field initialisers have run and before the
    body of the constructor. *)
Definition initialised : JsObject := list_to_map [
  ("centralSecurityServices", CentralSecurityServicesConfig);
  ("accessAnalyzer", AccessAnalyzerConfig);
  ("iamPasswordPolicy", IamPasswordPolicyConfig);
  ("awsConfig", AwsConfig);
  ("cloudWatch", CloudWatchConfig);
  ("keyManagementService", KeyManagementServiceConfig)
].

(** [new SecurityConfig(values)]; [new SecurityConfig()] is
    [new JUndefined]. *)
Definition new (values : JsValue) : JsObject :=
  if truthy values then Object_assign initialised values else initialised.

(** Return delegated-admin-account name. *)
Definition getDelegatedAccountName (this : JsObject) : Js JsValue :=
  centralSecurityServices ← get_property (JObj this) "centralSecurityServices";
  get_property centralSecurityServices "delegatedAdminAccount".

Section Loading.
(** [fs.readFileSync(p, 'utf8')], [path.join], [yaml.load] of js-yaml
    and [t.parse] of [common-types]: the functions the loaders call
    and this file does not define. *)
Context (readFileSync : string → JsError + string)
        (join : string → string → string)
        (yaml_load : string → JsError + JsValue)
        (parse : t.Codec → JsValue → JsError + JsValue)
        (ct : t.CommonTypes).

Definition load (dir : string) : Js JsObject :=
  buffer ← call (readFileSync (join dir FILENAME));
  document ← call (yaml_load buffer);
  values ← call (parse (SecurityConfigTypes.securityConfig ct) document);
  mret (new values).

(** Load from string content.  The declared result is
    [SecurityConfig | undefined], hence the [option]. *)
Definition loadFromString (content : string) : Js (option JsObject) :=
  try_catch
    (document ← call (yaml_load content);
     values ← call (parse (SecurityConfigTypes.securityConfig ct) document);
     mret (Some (new values)))
    (λ e,
       logger_error "Error parsing input, global config undefined";;
       logger_error (toString e);;
       throw (Error "could not load configuration")).

(** What [t.parse(SecurityConfigTypes.securityConfig, yaml.load(content))]
    evaluates to: the parsed values, or the error that one of the two
    calls throws. *)
Definition parsed (content : string) : JsError + JsValue :=
  match yaml_load content with
  | inr document => parse (SecurityConfigTypes.securityConfig ct) document
  | inl e => inl e
  end.

End Loading.

End SecurityConfig.

(* ===================================================================== *)
(** ** What the error handling promises *)

(** The diagnostic for a caught error [e]: the two lines that the handler
    of [loadFromString] hands to [logger.error]. *)
Definition diagnostic (e : JsError) : list LogEntry :=
  [error_entry "Error parsing input, global config undefined";
   error_entry (toString e)].

(** The generic error that replaces a parsing failure. *)
Definition could_not_load : JsError := Error "could not load configuration".

(** The contract of a loader that, run on the text [content] with the
    logger output [log], has finished as [outcome]: when parsing [content]
    fails with [e], the diagnostic for [e] is logged and the generic error
    is thrown. *)
Definition failure_contract {A : Type} (parsing : JsError + JsValue)
    (log : list LogEntry) (outcome : Completion A * list LogEntry) : Prop :=
  ∀ e, parsing = inl e →
    outcome = (Thrown could_not_load, (log ++ diagnostic e)%list).

(* ===================================================================== *)
(** ** What the schema promises about enumerations *)

(** The values of [macieConfig.policyFindingsPublishingFrequency]. *)
Definition FrequencyType : list string :=
  ["FIFTEEN_MINUTES"; "ONE_HOUR"; "SIX_HOURS"].

(** The names a [securityHubStandardConfig] may carry. *)
Definition standardNames : list string := [
  "AWS Foundational Security Best Practices v1.0.0";
  "CIS AWS Foundations Benchmark v1.2.0";
  "CIS AWS Foundations Benchmark v1.4.0";
  "NIST Special Publication 800-53 Revision 5";
  "PCI DSS v3.2.1"
].

(** The publishing frequency of Macie in [document] is one of
    [FrequencyType]. *)
Definition macie_frequency_in_enum (document : JsValue) : Prop :=
  ∃ f,
    field_path document
      ["centralSecurityServices"; "macie"; "policyFindingsPublishingFrequency"]
      = JStr f
    ∧ f ∈ FrequencyType.

(** Every standard listed under [securityHub.standards] in [document] is
    named by one of [standardNames]. *)
Definition standards_in_enum (document : JsValue) : Prop :=
  ∃ standards,
    field_path document ["centralSecurityServices"; "securityHub"; "standards"]
      = JArr standards
    ∧ ∀ standard, standard ∈ standards →
        ∃ n, field standard "name" = JStr n ∧ n ∈ standardNames.

Definition enum_membership (document : JsValue) : Prop :=
  macie_frequency_in_enum document ∧ standards_in_enum document.

(* ===================================================================== *)
(** ** A test bench

    Concrete stand-ins for what the loaders import, used by the examples:
    a few documents with the value js-yaml loads each of them to, a file
    system holding two configuration directories, and declarations for
    the shared codecs. *)

Module Bench.

Definition commonTypes : t.CommonTypes := {|
  t.region := t.enums "Region" ["us-east-1"; "us-west-2"; "eu-west-1"];
  t.deploymentTargets := t.interface [
    ("organizationalUnits", t.optional (t.array t.nonEmptyString));
    ("accounts", t.optional (t.array t.nonEmptyString))
  ];
  t.shareTargets := t.interface [
    ("organizationalUnits", t.optional (t.array t.nonEmptyString));
    ("accounts", t.optional (t.array t.nonEmptyString))
  ];
  t.lifecycleRuleConfig := t.interface [
    ("enabled", t.optional t.boolean);
    ("expiration", t.optional t.number)
  ];
  t.tag := t.interface [
    ("key", t.nonEmptyString);
    ("value", t.nonEmptyString)
  ];
|}.

(** A security configuration naming the Macie publishing [frequency] and
    one Security Hub [standard], as YAML text. *)
Definition security_yaml (frequency standard : string) : string :=
"centralSecurityServices:
  delegatedAdminAccount: Security
  ebsDefaultVolumeEncryption:
    enable: true
  s3PublicAccessBlock:
    enable: true
  macie:
    enable: true
    policyFindingsPublishingFrequency: " ++ frequency ++ "
    publishSensitiveDataFindings: true
  guardduty:
    enable: true
    s3Protection:
      enable: true
    exportConfiguration:
      enable: true
      destinationType: S3
      exportFrequency: FIFTEEN_MINUTES
  securityHub:
    enable: true
    standards:
      - name: " ++ standard ++ "
        enable: true
  ssmAutomation:
    documentSets: []
accessAnalyzer:
  enable: true
iamPasswordPolicy:
  allowUsersToChangePassword: true
  hardExpiry: false
  requireUppercaseCharacters: true
  requireLowercaseCharacters: true
  requireSymbols: true
  requireNumbers: true
  minimumPasswordLength: 16
  passwordReusePrevention: 24
  maxPasswordAge: 90
awsConfig:
  enableConfigurationRecorder: false
  ruleSets: []
cloudWatch:
  metricSets: []
  alarmSets: []
".

(** The value of [security_yaml frequency standard] once loaded. *)
Definition security_document (frequency standard : string) : JsValue := obj [
  ("centralSecurityServices", obj [
     ("delegatedAdminAccount", JStr "Security");
     ("ebsDefaultVolumeEncryption", obj [("enable", JBool true)]);
     ("s3PublicAccessBlock", obj [("enable", JBool true)]);
     ("macie", obj [
        ("enable", JBool true);
        ("policyFindingsPublishingFrequency", JStr frequency);
        ("publishSensitiveDataFindings", JBool true)
      ]);
     ("guardduty", obj [
        ("enable", JBool true);
        ("s3Protection", obj [("enable", JBool true)]);
        ("exportConfiguration", obj [
           ("enable", JBool true);
           ("destinationType", JStr "S3");
           ("exportFrequency", JStr "FIFTEEN_MINUTES")
         ])
      ]);
     ("securityHub", obj [
        ("enable", JBool true);
        ("standards", JArr [
           obj [("name", JStr standard); ("enable", JBool true)]
         ])
      ]);
     ("ssmAutomation", obj [("documentSets", JArr [])])
   ]);
  ("accessAnalyzer", obj [("enable", JBool true)]);
  ("iamPasswordPolicy", obj [
     ("allowUsersToChangePassword", JBool true);
     ("hardExpiry", JBool false);
     ("requireUppercaseCharacters", JBool true);
     ("requireLowercaseCharacters", JBool true);
     ("requireSymbols", JBool true);
     ("requireNumbers", JBool true);
     ("minimumPasswordLength", JNum 16);
     ("passwordReusePrevention", JNum 24);
     ("maxPasswordAge", JNum 90)
   ]);
  ("awsConfig", obj [
     ("enableConfigurationRecorder", JBool false);
     ("ruleSets", JArr [])
   ]);
  ("cloudWatch", obj [("metricSets", JArr []); ("alarmSets", JArr [])])
].

Definition valid_yaml : string := security_yaml "ONE_HOUR" "PCI DSS v3.2.1".
Definition valid_document : JsValue := security_document "ONE_HOUR" "PCI DSS v3.2.1".

(** The fields of [valid_document], and its central security section. *)
Definition valid_values : JsObject := own_enumerable valid_document.
Definition valid_central : JsObject :=
  own_enumerable (field valid_document "centralSecurityServices").

(** A frequency outside the enumeration. *)
Definition daily_yaml : string := security_yaml "DAILY" "PCI DSS v3.2.1".
Definition daily_document : JsValue := security_document "DAILY" "PCI DSS v3.2.1".

(** A standard outside the enumeration. *)
Definition soc2_yaml : string := security_yaml "ONE_HOUR" "SOC 2".
Definition soc2_document : JsValue := security_document "ONE_HOUR" "SOC 2".

(** A flow sequence that is never closed: not YAML. *)
Definition unclosed_yaml : string := "centralSecurityServices: [".

(** The documents of the bench; js-yaml loads the empty text to
    [undefined] and [{}] to the empty object.  Any other text is
    answered with the exception of [unclosed_yaml], its message given
    without the position mark, which is all the examples ask of it. *)
Definition yaml_load (content : string) : JsError + JsValue :=
  if decide (content = valid_yaml) then inr valid_document
  else if decide (content = daily_yaml) then inr daily_document
  else if decide (content = soc2_yaml) then inr soc2_document
  else if decide (content = "") then inr JUndefined
  else if decide (content = "{}") then inr (obj [])
  else inl (mkError "YAMLException"
              "unexpected end of the stream within a flow collection").

(** [path.join] on a directory without a trailing separator and a plain
    file name. *)
Definition join (dir file : string) : string := dir ++ "/" ++ file.

(** A file system with a valid configuration under [/config], one with
    the frequency [DAILY] under [/daily], one that is not YAML under
    [/broken], and a file of another name. *)
Definition readFileSync (p : string) : JsError + string :=
  if decide (p = "/config/security-config.yaml") then inr valid_yaml
  else if decide (p = "/daily/security-config.yaml") then inr daily_yaml
  else if decide (p = "/broken/security-config.yaml") then inr unclosed_yaml
  else if decide (p = "/daily/global-config.yaml") then inr valid_yaml
  else inl (Error ("ENOENT: no such file or directory, open '" ++ p ++ "'")).

(** The same file system after [/config/global-config.yaml] is written
    and [/daily/global-config.yaml] is removed. *)
Definition readFileSync' (p : string) : JsError + string :=
  if decide (p = "/config/security-config.yaml") then inr valid_yaml
  else if decide (p = "/daily/security-config.yaml") then inr daily_yaml
  else if decide (p = "/config/global-config.yaml") then inr unclosed_yaml
  else inl (Error ("ENOENT: no such file or directory, open '" ++ p ++ "'")).

Definition load : string → Js JsObject :=
  SecurityConfig.load readFileSync join yaml_load t.parse commonTypes.

Definition loadFromString : string → Js (option JsObject) :=
  SecurityConfig.loadFromString yaml_load t.parse commonTypes.

End Bench.


(* ===================================================================== *)
(** ** The shape of an instance and of an accepted document *)


(** [undefined] and [null], the two values a property read throws on. *)
Definition nullish (v : JsValue) : Prop := v = JUndefined ∨ v = JNull.

(** A constructor argument that [Object.assign] finds no own enumerable
    property on: [undefined], [null], a boolean, a number, the empty
    string, the empty array or the empty object. *)
Definition nothing_to_copy (v : JsValue) : Prop :=
  match v with
  | JUndefined | JNull | JBool _ | JNum _ => True
  | JStr s => s = ""
  | JArr items => items = []
  | JObj fields => fields = ∅
  end.

(** The values of [guardDutyExportFindingsConfig.exportFrequency]. *)
Definition ExportFrequencyType : list string :=
  ["FIFTEEN_MINUTES"; "ONE_HOUR"; "SIX_HOURS"].

(** The export configuration of GuardDuty in [document] goes to S3, the
    one destination type declared, at one of the declared frequencies. *)
Definition guardduty_export_in_enum (document : JsValue) : Prop :=
  field_path document
    ["centralSecurityServices"; "guardduty"; "exportConfiguration"; "destinationType"]
    = JStr "S3"
  ∧ ∃ f,
      field_path document
        ["centralSecurityServices"; "guardduty"; "exportConfiguration"; "exportFrequency"]
        = JStr f
      ∧ f ∈ ExportFrequencyType.




(** The fields of [iamPasswordPolicyConfig] declared as [t.number]. *)
Definition numericPolicyFields : list string :=
  ["minimumPasswordLength"; "passwordReusePrevention"; "maxPasswordAge"].

(** [document] with the property [k] of its section [section] set to
    [v]; a document without that section is left as it is. *)
Definition with_section_field (document : JsValue) (section k : string)
    (v : JsValue) : JsValue :=
  match document with
  | JObj fields =>
      match fields !! section with
      | Some (JObj inner) => JObj (<[section := JObj (<[k := v]> inner)]> fields)
      | _ => document
      end
  | _ => document
  end.

(** More values for the test bench: constructor arguments that leave the
    central security section out, give it without an administrator
    account, or give [null] for it. *)
Module Cases.

Definition only_analyzer : JsObject :=
  list_to_map [("accessAnalyzer", obj [("enable", JBool true)])].

Definition macie_only : JsObject :=
  list_to_map [("macie", MacieConfig)].

Definition bare_central : JsObject :=
  list_to_map [("centralSecurityServices", JObj macie_only)].

Definition null_central : JsObject :=
  list_to_map [("centralSecurityServices", JNull)].

End Cases.

(* ===================================================================== *)
(** ** Running the effect monad *)

Lemma run_call_inr {A B : Type} (a : A) (k : A → Js B) (log : list LogEntry) :
  (call (inr a) ≫= k) log = k a log.
Proof. reflexivity. Qed.

Lemma run_call_inl {A B : Type} (e : JsError) (k : A → Js B) (log : list LogEntry) :
  (call (inl e) ≫= k) log = (Thrown e, log).
Proof. reflexivity. Qed.

(* ===================================================================== *)
(** ** The loaders, case by case *)

Section LoaderFacts.
Context (readFileSync : string → JsError + string)
        (join : string → string → string)
        (yaml_load : string → JsError + JsValue)
        (parse : t.Codec → JsValue → JsError + JsValue)
        (ct : t.CommonTypes).

Local Abbreviation loadFromString := (SecurityConfig.loadFromString yaml_load parse ct).
Local Abbreviation load := (SecurityConfig.load readFileSync join yaml_load parse ct).
Local Abbreviation parsed := (SecurityConfig.parsed yaml_load parse ct).

Lemma loadFromString_parsed_ok content values log :
  parsed content = inr values →
  loadFromString content log = (Normal (Some (SecurityConfig.new values)), log).
Proof.
  unfold SecurityConfig.parsed, SecurityConfig.loadFromString, try_catch.
  intros H. destruct (yaml_load content) as [e | document]; [discriminate |].
  rewrite run_call_inr, H. reflexivity.
Qed.

Lemma loadFromString_parsed_error content e log :
  parsed content = inl e →
  loadFromString content log
  = (Thrown could_not_load, (log ++ diagnostic e)%list).
Proof.
  unfold SecurityConfig.parsed, SecurityConfig.loadFromString, try_catch.
  intros H. destruct (yaml_load content) as [e' | document].
  - injection H as ->. rewrite run_call_inl.
    unfold mbind, Js_bind, logger_error, throw, diagnostic. simpl.
    by rewrite <- app_assoc.
  - rewrite run_call_inr, H, run_call_inl.
    unfold mbind, Js_bind, logger_error, throw, diagnostic. simpl.
    by rewrite <- app_assoc.
Qed.

Lemma load_run dir log :
  load dir log =
  match readFileSync (join dir SecurityConfig.FILENAME) with
  | inl e => (Thrown e, log)
  | inr buffer =>
      match parsed buffer with
      | inl e => (Thrown e, log)
      | inr values => (Normal (SecurityConfig.new values), log)
      end
  end.
Proof.
  unfold SecurityConfig.load, SecurityConfig.parsed.
  destruct (readFileSync _) as [e | buffer]; [reflexivity |].
  rewrite run_call_inr.
  destruct (yaml_load buffer) as [e | document]; [reflexivity |].
  rewrite run_call_inr.
  destruct (parse _ document) as [e | values]; reflexivity.
Qed.

(* ------------------------------------------------------------------- *)
(** *** [loadFromString] *)

(** C1: on every input string [loadFromString] returns exactly when the
    content loads as YAML and passes the [securityConfig] schema, and
    then what it returns is the [SecurityConfig] built from the parsed
    values over the class defaults; on every other input it throws. *)
Theorem loadFromString_returns_iff_valid content log :
  (∀ values, parsed content = inr values →
     fst (loadFromString content log)
     = Normal (Some (SecurityConfig.new values)))
  ∧ (∀ fields, parsed content = inr (JObj fields) →
       fst (loadFromString content log)
       = Normal (Some (fields ∪ SecurityConfig.initialised)))
  ∧ (∀ e, parsed content = inl e →
       ∃ e', fst (loadFromString content log) = Thrown e')
  ∧ ((∃ result, fst (loadFromString content log) = Normal result)
     ↔ (∃ values, parsed content = inr values)).
Proof.
  split; [| split; [| split]].
  - intros values H. by rewrite (loadFromString_parsed_ok _ _ log H).
  - intros fields H. by rewrite (loadFromString_parsed_ok _ _ log H).
  - intros e H. rewrite (loadFromString_parsed_error _ _ log H). eauto.
  - destruct (parsed content) as [e | values] eqn:H.
    + rewrite (loadFromString_parsed_error _ _ log H). simpl.
      split; intros [x Hx]; discriminate.
    + rewrite (loadFromString_parsed_ok _ _ log H). simpl.
      split; eauto.
Qed.

(** C2: when the YAML load or the schema validation throws,
    [loadFromString] logs the diagnostic for the caught error and throws
    an [Error] whose message is 'could not load configuration'. *)
Theorem loadFromString_failure_is_generic content log e :
  parsed content = inl e →
  loadFromString content log
  = (Thrown (Error "could not load configuration"),
     (log ++ [error_entry "Error parsing input, global config undefined";
              error_entry (toString e)])%list).
Proof. intros H. exact (loadFromString_parsed_error _ _ log H). Qed.

(** C7: two runs of [loadFromString] on the same content complete the
    same way, with equal results, and write the same lines, whatever the
    logger held before. *)
Theorem loadFromString_deterministic content log1 log2 :
  fst (loadFromString content log1) = fst (loadFromString content log2)
  ∧ ∃ written,
      snd (loadFromString content log1) = (log1 ++ written)%list
      ∧ snd (loadFromString content log2) = (log2 ++ written)%list.
Proof.
  destruct (parsed content) as [e | values] eqn:H.
  - rewrite !(loadFromString_parsed_error _ _ _ H). simpl. eauto.
  - rewrite !(loadFromString_parsed_ok _ _ _ H). simpl.
    split; [done |]. exists []. by rewrite !app_nil_r.
Qed.

(** C8: [loadFromString] never returns [undefined]: it returns a
    constructed [SecurityConfig] or it throws. *)
Theorem loadFromString_never_undefined content log :
  fst (loadFromString content log) ≠ Normal None
  ∧ ((∃ config, fst (loadFromString content log) = Normal (Some config))
     ∨ (∃ e, fst (loadFromString content log) = Thrown e)).
Proof.
  destruct (parsed content) as [e | values] eqn:H.
  - rewrite (loadFromString_parsed_error _ _ log H). simpl.
    split; [discriminate | eauto].
  - rewrite (loadFromString_parsed_ok _ _ log H). simpl.
    split; [discriminate | eauto].
Qed.

(* ------------------------------------------------------------------- *)
(** *** [load] *)

(** C3, as the code has it: when parsing the content of the file fails,
    [load] throws the very error of the failing call and writes nothing
    to the logger. *)
Theorem load_failure_propagates dir content log e :
  readFileSync (join dir SecurityConfig.FILENAME) = inr content →
  parsed content = inl e →
  load dir log = (Thrown e, log).
Proof. intros Hfile H. by rewrite load_run, Hfile, H. Qed.

End LoaderFacts.

(** C4: [load dir] reads [path.join(dir, 'security-config.yaml')] and no
    other file: its outcome is the parse of that file's content against
    [securityConfig], wrapped in a [SecurityConfig], and two file systems
    that agree on that one path give the same outcome. *)
Theorem load_reads_FILENAME :
  SecurityConfig.FILENAME = "security-config.yaml"
  ∧ (∀ readFileSync join yaml_load parse ct dir log,
       SecurityConfig.load readFileSync join yaml_load parse ct dir log =
       match readFileSync (join dir "security-config.yaml") with
       | inl e => (Thrown e, log)
       | inr buffer =>
           match SecurityConfig.parsed yaml_load parse ct buffer with
           | inl e => (Thrown e, log)
           | inr values => (Normal (SecurityConfig.new values), log)
           end
       end)
  ∧ (∀ readFileSync readFileSync' join yaml_load parse ct dir log,
       readFileSync (join dir "security-config.yaml")
       = readFileSync' (join dir "security-config.yaml") →
       SecurityConfig.load readFileSync join yaml_load parse ct dir log
       = SecurityConfig.load readFileSync' join yaml_load parse ct dir log).
Proof.
  split; [reflexivity | split].
  - intros. apply load_run.
  - intros rf rf' join yaml_load parse ct dir log H.
    rewrite !load_run. unfold SecurityConfig.FILENAME. by rewrite H.
Qed.

(** [loadFromString] keeps the failure contract. *)
Lemma loadFromString_failure_contract yaml_load parse ct content log :
  failure_contract (SecurityConfig.parsed yaml_load parse ct content) log
    (SecurityConfig.loadFromString yaml_load parse ct content log).
Proof. intros e H. exact (loadFromString_parsed_error _ _ _ _ _ log H). Qed.

(* ===================================================================== *)
(** ** The constructor and the accessor *)

Lemma new_object (values : JsObject) :
  SecurityConfig.new (JObj values) = values ∪ SecurityConfig.initialised.
Proof. reflexivity. Qed.

(** C5: [new SecurityConfig()] is the instance of the field initialisers:
    delegated administrator 'Audit', password policy 14 / 24 / 90, Macie,
    GuardDuty, Security Hub and the access analyzer switched off, and the
    configuration recorder switched on. *)
Theorem new_without_values_is_defaulted :
  let config := JObj (SecurityConfig.new JUndefined) in
  SecurityConfig.new JUndefined = SecurityConfig.initialised
  ∧ field_path config ["centralSecurityServices"; "delegatedAdminAccount"] = JStr "Audit"
  ∧ field_path config ["iamPasswordPolicy"; "minimumPasswordLength"] = JNum 14
  ∧ field_path config ["iamPasswordPolicy"; "passwordReusePrevention"] = JNum 24
  ∧ field_path config ["iamPasswordPolicy"; "maxPasswordAge"] = JNum 90
  ∧ field_path config ["centralSecurityServices"; "macie"; "enable"] = JBool false
  ∧ field_path config ["centralSecurityServices"; "guardduty"; "enable"] = JBool false
  ∧ field_path config ["centralSecurityServices"; "securityHub"; "enable"] = JBool false
  ∧ field_path config ["accessAnalyzer"; "enable"] = JBool false
  ∧ field_path config ["awsConfig"; "enableConfigurationRecorder"] = JBool true.
Proof. cbv zeta. repeat split; reflexivity. Qed.

(** C9: the constructor merges [values] one level deep.  A field that
    [values] has is, in the new instance, the value supplied, as it is; a
    field that [values] lacks keeps the object of its initialiser. *)
Theorem new_merges_top_level_only (values : JsObject) (k : string) :
  (∀ v, values !! k = Some v → SecurityConfig.new (JObj values) !! k = Some v)
  ∧ (values !! k = None →
     SecurityConfig.new (JObj values) !! k = SecurityConfig.initialised !! k).
Proof.
  rewrite new_object. split.
  - intros v H. by apply lookup_union_Some_l.
  - intros H. by apply lookup_union_r.
Qed.

(** C10: [getDelegatedAccountName] returns
    [this.centralSecurityServices.delegatedAdminAccount] and leaves the
    logger as it found it; on [new SecurityConfig()] it returns 'Audit'. *)
Theorem getDelegatedAccountName_reads_field (this : JsObject) (log : list LogEntry) :
  (∀ central, this !! "centralSecurityServices" = Some (JObj central) →
     SecurityConfig.getDelegatedAccountName this log
     = (Normal (default JUndefined (central !! "delegatedAdminAccount")), log))
  ∧ snd (SecurityConfig.getDelegatedAccountName this log) = log
  ∧ SecurityConfig.getDelegatedAccountName (SecurityConfig.new JUndefined) log
    = (Normal (JStr "Audit"), log).
Proof.
  split; [| split].
  - intros central H.
    unfold SecurityConfig.getDelegatedAccountName, mbind, Js_bind.
    cbn [get_property field mret Js_ret]. rewrite H. reflexivity.
  - unfold SecurityConfig.getDelegatedAccountName, mbind, Js_bind.
    cbn [get_property mret Js_ret].
    destruct (field (JObj this) "centralSecurityServices"); reflexivity.
  - reflexivity.
Qed.

(* ===================================================================== *)
(** ** What an accepted document looks like *)

Lemma concat_nil_inv {A : Type} (ls : list (list A)) :
  concat ls = [] → ∀ l, l ∈ ls → l = [].
Proof.
  induction ls as [| l0 ls IH]; simpl; intros H l Hl.
  - by apply elem_of_nil in Hl.
  - apply app_eq_nil in H as [H0 H1].
    apply elem_of_cons in Hl as [-> | Hl]; auto.
Qed.

(** An accepted interface value is an object. *)
Lemma validate_interface_object props path u :
  t.validate (t.interface props) path u = [] → ∃ m, u = JObj m.
Proof. destruct u; simpl; intros H; try discriminate. eauto. Qed.

(** Each declared field of an accepted interface value is accepted by the
    codec of the field. *)
Lemma validate_interface_field props path u k c :
  t.validate (t.interface props) path u = [] →
  (k, c) ∈ props →
  t.validate c (path ++ "/" ++ k) (field u k) = [].
Proof.
  destruct u; simpl; intros H Hin; try discriminate.
  apply (concat_nil_inv _ H).
  apply list_elem_of_In, in_map_iff. exists (k, c).
  split; [reflexivity | by apply list_elem_of_In].
Qed.

(** An accepted enum value is one of the listed strings. *)
Lemma validate_enums_member enum_name values path u :
  t.validate (t.enums enum_name values) path u = [] →
  ∃ s, u = JStr s ∧ s ∈ values.
Proof.
  destruct u; simpl; intros H; try discriminate.
  destruct (decide (s ∈ values)); [eauto | discriminate].
Qed.

(** An accepted array value is an array whose elements are accepted. *)
Lemma validate_array_items item path u :
  t.validate (t.array item) path u = [] →
  ∃ items, u = JArr items
    ∧ ∀ i x, items !! i = Some x →
        t.validate item (path ++ "/" ++ pretty i) x = [].
Proof.
  destruct u; simpl; intros H; try discriminate.
  exists items. split; [reflexivity |]. intros i x Hi.
  apply (concat_nil_inv _ H).
  by apply (elem_of_lookup_imap_2
              (λ i x, t.validate item (path ++ "/" ++ pretty i) x) items x i).
Qed.

(** [t.parse] succeeds on the accepted values only. *)
Lemma parse_ok_validate c content values :
  t.parse c content = inr values → t.validate c "" content = [] ∧ values = content.
Proof.
  unfold t.parse. destruct (t.validate c "" content); intros H.
  - by injection H as <-.
  - discriminate.
Qed.

(** Finds a declared field in the property list of an interface. *)
Ltac declared_field :=
  apply list_elem_of_In; cbn [In];
  repeat first [left; reflexivity | right].

Section Enumerations.
Context (ct : t.CommonTypes).

Lemma validate_macie_frequency document :
  t.validate (SecurityConfigTypes.securityConfig ct) "" document = [] →
  macie_frequency_in_enum document.
Proof.
  intros H.
  eapply validate_interface_field with
    (k := "centralSecurityServices")
    (c := SecurityConfigTypes.centralSecurityServicesConfig ct) in H;
    [| declared_field].
  eapply validate_interface_field with
    (k := "macie") (c := SecurityConfigTypes.macieConfig ct) in H;
    [| declared_field].
  eapply validate_interface_field with
    (k := "policyFindingsPublishingFrequency")
    (c := t.enums "FrequencyType" FrequencyType) in H;
    [| declared_field].
  apply validate_enums_member in H as (f & Hf & Hin).
  exists f. split; [exact Hf | exact Hin].
Qed.

Lemma validate_standard_names document :
  t.validate (SecurityConfigTypes.securityConfig ct) "" document = [] →
  standards_in_enum document.
Proof.
  intros H.
  eapply validate_interface_field with
    (k := "centralSecurityServices")
    (c := SecurityConfigTypes.centralSecurityServicesConfig ct) in H;
    [| declared_field].
  eapply validate_interface_field with
    (k := "securityHub") (c := SecurityConfigTypes.securityHubConfig ct) in H;
    [| declared_field].
  eapply validate_interface_field with
    (k := "standards")
    (c := t.array (SecurityConfigTypes.securityHubStandardConfig ct)) in H;
    [| declared_field].
  apply validate_array_items in H as (standards & Hs & Hitems).
  exists standards. split; [exact Hs |].
  intros standard [i Hi]%list_elem_of_lookup.
  specialize (Hitems i standard Hi).
  eapply validate_interface_field with
    (k := "name") (c := t.enums "ExportFrequencyType" standardNames) in Hitems;
    [| declared_field].
  apply validate_enums_member in Hitems as (n & Hn & Hin). eauto.
Qed.

Lemma validate_enum_membership document :
  t.validate (SecurityConfigTypes.securityConfig ct) "" document = [] →
  enum_membership document.
Proof.
  intros H. split;
    [by apply validate_macie_frequency | by apply validate_standard_names].
Qed.

End Enumerations.

(** C6: the schema enforces enum membership.  A document that [t.parse]
    accepts against [securityConfig] has a Macie publishing frequency among
    FIFTEEN_MINUTES, ONE_HOUR and SIX_HOURS and names every Security Hub
    standard by one of the five declared names; [loadFromString] and [load]
    return only on such a document and throw on every other one. *)
Theorem schema_enforces_enum_membership (ct : t.CommonTypes) :
  (∀ document values,
     t.parse (SecurityConfigTypes.securityConfig ct) document = inr values →
     enum_membership document)
  ∧ (∀ yaml_load content document log,
       yaml_load content = inr document →
       ((∃ result,
           fst (SecurityConfig.loadFromString yaml_load t.parse ct content log)
           = Normal result) →
        enum_membership document)
       ∧ (¬ enum_membership document →
          ∃ e, fst (SecurityConfig.loadFromString yaml_load t.parse ct content log)
               = Thrown e))
  ∧ (∀ readFileSync join yaml_load dir content document log,
       readFileSync (join dir SecurityConfig.FILENAME) = inr content →
       yaml_load content = inr document →
       ((∃ result,
           fst (SecurityConfig.load readFileSync join yaml_load t.parse ct dir log)
           = Normal result) →
        enum_membership document)
       ∧ (¬ enum_membership document →
          ∃ e, fst (SecurityConfig.load readFileSync join yaml_load t.parse ct dir log)
               = Thrown e)).
Proof.
  assert (Hparse : ∀ document values,
             t.parse (SecurityConfigTypes.securityConfig ct) document = inr values →
             enum_membership document).
  { intros document values [H _]%parse_ok_validate.
    by apply validate_enum_membership in H. }
  split; [exact Hparse | split].
  - intros yaml_load content document log Hload.
    assert (Hparsed : SecurityConfig.parsed yaml_load t.parse ct content
                      = t.parse (SecurityConfigTypes.securityConfig ct) document).
    { unfold SecurityConfig.parsed. by rewrite Hload. }
    destruct (t.parse (SecurityConfigTypes.securityConfig ct) document)
      as [e | values] eqn:Hp.
    + rewrite (loadFromString_parsed_error _ _ _ _ _ log Hparsed). simpl.
      split; [intros [r Hr]; discriminate | eauto].
    + split; [intros _; by eapply Hparse |].
      intros Hnot. destruct Hnot. by eapply Hparse.
  - intros readFileSync join yaml_load dir content document log Hfile Hload.
    assert (Hparsed : SecurityConfig.parsed yaml_load t.parse ct content
                      = t.parse (SecurityConfigTypes.securityConfig ct) document).
    { unfold SecurityConfig.parsed. by rewrite Hload. }
    rewrite load_run, Hfile, Hparsed.
    destruct (t.parse (SecurityConfigTypes.securityConfig ct) document)
      as [e | values] eqn:Hp; simpl.
    + split; [intros [r Hr]; discriminate | eauto].
    + split; [intros _; by eapply Hparse |].
      intros Hnot. destruct Hnot. by eapply Hparse.
Qed.

(* ===================================================================== *)
(** ** The theorems at work on the test bench *)

(** The constructor does not reach into a supplied section: the valid
    document gives no [scpRevertChangesConfig] and no [keyManagementService];
    the first stays [undefined] although the class default of the section
    has one, the second keeps its initialiser. *)
Example new_keeps_supplied_section :
  let config := JObj (SecurityConfig.new Bench.valid_document) in
  field config "centralSecurityServices"
  = field Bench.valid_document "centralSecurityServices"
  ∧ field_path config ["centralSecurityServices"; "scpRevertChangesConfig"]
    = JUndefined
  ∧ field_path CentralSecurityServicesConfig ["scpRevertChangesConfig"]
    = ScpRevertChangesConfig
  ∧ field config "keyManagementService" = KeyManagementServiceConfig.
Proof. cbv zeta. repeat split; reflexivity. Qed.

Lemma daily_breaks_enum_membership : ¬ enum_membership Bench.daily_document.
Proof.
  assert (E : field_path Bench.daily_document
                ["centralSecurityServices"; "macie"; "policyFindingsPublishingFrequency"]
              = JStr "DAILY") by reflexivity.
  intros [(f & Hf & Hin) _]. rewrite E in Hf. injection Hf as <-.
  apply list_elem_of_In in Hin. simpl in Hin. intuition discriminate.
Qed.

Lemma soc2_breaks_enum_membership : ¬ enum_membership Bench.soc2_document.
Proof.
  set (standard := obj [("name", JStr "SOC 2"); ("enable", JBool true)]).
  assert (E : field_path Bench.soc2_document
                ["centralSecurityServices"; "securityHub"; "standards"]
              = JArr [standard]) by reflexivity.
  assert (En : field standard "name" = JStr "SOC 2") by reflexivity.
  intros [_ (standards & Hs & Hall)]. rewrite E in Hs. injection Hs as <-.
  destruct (Hall standard (list_elem_of_here _ _)) as (n & Hn & Hin).
  rewrite En in Hn. injection Hn as <-.
  apply list_elem_of_In in Hin. simpl in Hin. intuition discriminate.
Qed.

Lemma loadFromString_returns_iff_valid_witness :
  fst (Bench.loadFromString Bench.valid_yaml [])
  = Normal (Some (SecurityConfig.new Bench.valid_document))
  ∧ ∃ e', fst (Bench.loadFromString Bench.unclosed_yaml []) = Thrown e'.
Proof.
  split.
  - apply (proj1 (loadFromString_returns_iff_valid
                    Bench.yaml_load t.parse Bench.commonTypes Bench.valid_yaml [])).
    reflexivity.
  - apply (proj1 (proj2 (proj2 (loadFromString_returns_iff_valid
                    Bench.yaml_load t.parse Bench.commonTypes Bench.unclosed_yaml [])))
             (mkError "YAMLException"
                "unexpected end of the stream within a flow collection")).
    reflexivity.
Defined.

Lemma loadFromString_failure_is_generic_witness :
  Bench.loadFromString Bench.daily_yaml []
  = (Thrown (Error "could not load configuration"),
     [error_entry "Error parsing input, global config undefined";
      error_entry
        "Error: invalid value at: /centralSecurityServices/macie/policyFindingsPublishingFrequency"]).
Proof.
  apply (loadFromString_failure_is_generic
           Bench.yaml_load t.parse Bench.commonTypes Bench.daily_yaml []
           (Error "invalid value at: /centralSecurityServices/macie/policyFindingsPublishingFrequency")).
  reflexivity.
Defined.

(** C3, as the claim has it, fails: on the directory [/broken], whose
    configuration file is not YAML, [load] does not keep the failure
    contract of [loadFromString]; it throws the exception of js-yaml and
    the logger stays empty. *)
Lemma load_breaks_failure_contract :
  Bench.readFileSync (Bench.join "/broken" SecurityConfig.FILENAME)
  = inr Bench.unclosed_yaml
  ∧ Bench.load "/broken" []
    = (Thrown (mkError "YAMLException"
                 "unexpected end of the stream within a flow collection"), [])
  ∧ ¬ failure_contract
        (SecurityConfig.parsed Bench.yaml_load t.parse Bench.commonTypes
           Bench.unclosed_yaml)
        [] (Bench.load "/broken" []).
Proof.
  split; [reflexivity | split; [reflexivity |]].
  intros H.
  assert (Hfail : SecurityConfig.parsed Bench.yaml_load t.parse Bench.commonTypes
                    Bench.unclosed_yaml
                  = inl (mkError "YAMLException"
                           "unexpected end of the stream within a flow collection"))
    by reflexivity.
  specialize (H _ Hfail).
  assert (Hrun : Bench.load "/broken" []
                 = (Thrown (mkError "YAMLException"
                              "unexpected end of the stream within a flow collection"),
                    [])) by reflexivity.
  rewrite Hrun in H. discriminate H.
Qed.

Lemma load_failure_propagates_witness :
  Bench.load "/daily" []
  = (Thrown (Error "invalid value at: /centralSecurityServices/macie/policyFindingsPublishingFrequency"),
     []).
Proof.
  apply (load_failure_propagates
           Bench.readFileSync Bench.join Bench.yaml_load t.parse Bench.commonTypes
           "/daily" Bench.daily_yaml []).
  - reflexivity.
  - reflexivity.
Defined.

Lemma load_reads_FILENAME_witness :
  SecurityConfig.load Bench.readFileSync Bench.join Bench.yaml_load t.parse
    Bench.commonTypes "/config" []
  = SecurityConfig.load Bench.readFileSync' Bench.join Bench.yaml_load t.parse
      Bench.commonTypes "/config" [].
Proof.
  apply (proj2 (proj2 load_reads_FILENAME)). reflexivity.
Defined.

Lemma schema_enforces_enum_membership_witness :
  enum_membership Bench.valid_document
  ∧ (∃ e, fst (Bench.loadFromString Bench.daily_yaml []) = Thrown e)
  ∧ (∃ e, fst (Bench.loadFromString Bench.soc2_yaml []) = Thrown e)
  ∧ (∃ e, fst (Bench.load "/daily" []) = Thrown e).
Proof.
  pose proof (schema_enforces_enum_membership Bench.commonTypes) as (Hp & Hs & Hl).
  split; [| split; [| split]].
  - apply (Hp Bench.valid_document Bench.valid_document). reflexivity.
  - apply (proj2 (Hs Bench.yaml_load Bench.daily_yaml Bench.daily_document []
                     ltac:(reflexivity))).
    exact daily_breaks_enum_membership.
  - apply (proj2 (Hs Bench.yaml_load Bench.soc2_yaml Bench.soc2_document []
                     ltac:(reflexivity))).
    exact soc2_breaks_enum_membership.
  - apply (proj2 (Hl Bench.readFileSync Bench.join Bench.yaml_load "/daily"
                     Bench.daily_yaml Bench.daily_document []
                     ltac:(reflexivity) ltac:(reflexivity))).
    exact daily_breaks_enum_membership.
Defined.

Lemma new_merges_top_level_only_witness :
  SecurityConfig.new (JObj Bench.valid_values) !! "centralSecurityServices"
  = Some (JObj Bench.valid_central)
  ∧ SecurityConfig.new (JObj Bench.valid_values) !! "keyManagementService"
    = SecurityConfig.initialised !! "keyManagementService".
Proof.
  split.
  - apply (proj1 (new_merges_top_level_only Bench.valid_values
                    "centralSecurityServices")).
    reflexivity.
  - apply (proj2 (new_merges_top_level_only Bench.valid_values
                    "keyManagementService")).
    reflexivity.
Defined.

Lemma getDelegatedAccountName_reads_field_witness :
  SecurityConfig.getDelegatedAccountName
    (SecurityConfig.new Bench.valid_document) []
  = (Normal (default JUndefined (Bench.valid_central !! "delegatedAdminAccount")), [])
  ∧ default JUndefined (Bench.valid_central !! "delegatedAdminAccount")
    = JStr "Security".
Proof.
  split.
  - apply (proj1 (getDelegatedAccountName_reads_field
                    (SecurityConfig.new Bench.valid_document) [])).
    reflexivity.
  - reflexivity.
Defined.


(* ===================================================================== *)
(** ** The two loaders side by side *)

Section LoaderRelations.
Context (readFileSync : string → JsError + string)
        (join : string → string → string)
        (yaml_load : string → JsError + JsValue)
        (parse : t.Codec → JsValue → JsError + JsValue)
        (ct : t.CommonTypes).

Local Abbreviation loadFromString := (SecurityConfig.loadFromString yaml_load parse ct).
Local Abbreviation load := (SecurityConfig.load readFileSync join yaml_load parse ct).
Local Abbreviation parsed := (SecurityConfig.parsed yaml_load parse ct).

(** X1: on a directory whose configuration file can be read, [load]
    returns a configuration exactly when [loadFromString] returns it on
    the content of the file, and the one throws exactly when the other
    does. *)
Theorem load_agrees_with_loadFromString dir content log log' :
  readFileSync (join dir SecurityConfig.FILENAME) = inr content →
  (∀ config,
     fst (load dir log) = Normal config
     ↔ fst (loadFromString content log') = Normal (Some config))
  ∧ ((∃ e, fst (load dir log) = Thrown e)
     ↔ (∃ e, fst (loadFromString content log') = Thrown e)).
Proof.
  intros Hfile. rewrite load_run, Hfile.
  destruct (parsed content) as [e | values] eqn:H.
  - rewrite (loadFromString_parsed_error _ _ _ _ _ log' H). simpl. split.
    + intros config. split; discriminate.
    + split; eauto.
  - rewrite (loadFromString_parsed_ok _ _ _ _ _ log' H). simpl. split.
    + intros config. split; intros [= <-]; reflexivity.
    + split; intros [e He]; discriminate.
Qed.

(** X2: [load] never writes to the logger, and an error it throws is the
    one raised by reading the file or by parsing its content, handed on
    as it is. *)
Theorem load_never_logs dir log :
  snd (load dir log) = log
  ∧ ∀ e, fst (load dir log) = Thrown e →
      readFileSync (join dir SecurityConfig.FILENAME) = inl e
      ∨ ∃ content,
          readFileSync (join dir SecurityConfig.FILENAME) = inr content
          ∧ parsed content = inl e.
Proof.
  rewrite load_run.
  destruct (readFileSync _) as [e | content] eqn:Hfile.
  - split; [reflexivity |]. intros e' [= <-]. by left.
  - destruct (parsed content) as [e | values] eqn:H; simpl.
    + split; [reflexivity |]. intros e' [= <-]. right. eauto.
    + split; [reflexivity |]. discriminate.
Qed.

(** X3: [loadFromString] writes to the logger exactly when it throws: a
    run that returns leaves the logger as it was, a run that throws adds
    two lines; and whatever went wrong, the error thrown is the same
    'could not load configuration'. *)
Theorem loadFromString_logs_iff_throws content log :
  ((∃ result, fst (loadFromString content log) = Normal result)
   ↔ snd (loadFromString content log) = log)
  ∧ ((∃ e, fst (loadFromString content log) = Thrown e)
     ↔ length (snd (loadFromString content log)) = length log + 2)
  ∧ ∀ e, fst (loadFromString content log) = Thrown e →
      e = Error "could not load configuration".
Proof.
  destruct (parsed content) as [e | values] eqn:H.
  - rewrite (loadFromString_parsed_error _ _ _ _ _ log H). simpl.
    split; [| split].
    + split; [intros [r Hr]; discriminate |].
      intros Hlog. apply (f_equal length) in Hlog.
      rewrite length_app in Hlog. simpl in Hlog. lia.
    + split; [| eauto]. intros _. rewrite length_app. reflexivity.
    + by intros e' [= <-].
  - rewrite (loadFromString_parsed_ok _ _ _ _ _ log H). simpl.
    split; [| split].
    + split; eauto.
    + split; [intros [e He]; discriminate | lia].
    + discriminate.
Qed.

End LoaderRelations.

(* ===================================================================== *)
(** ** More on the constructor and the accessor *)

(** The constructor either keeps the initialised fields or lays the own
    properties of [values] over them. *)
Lemma new_cases (values : JsValue) :
  SecurityConfig.new values = SecurityConfig.initialised
  ∨ SecurityConfig.new values
    = own_enumerable values ∪ SecurityConfig.initialised.
Proof.
  unfold SecurityConfig.new, Object_assign.
  destruct (truthy values); [by right | by left].
Qed.


(** How [getDelegatedAccountName] runs, by the value of the section. *)
Lemma getDelegatedAccountName_run (this : JsObject) (log : list LogEntry) :
  SecurityConfig.getDelegatedAccountName this log
  = get_property (field (JObj this) "centralSecurityServices")
      "delegatedAdminAccount" log.
Proof. reflexivity. Qed.

(** X4: a constructor argument with nothing to copy leaves the field
    initialisers in place: [undefined], [null], a boolean and a number
    (falsy or not), the empty string, the empty array and the empty
    object all give the instance of [new SecurityConfig()]. *)
Theorem new_without_properties (values : JsValue) :
  nothing_to_copy values →
  SecurityConfig.new values = SecurityConfig.new JUndefined.
Proof.
  intros H. destruct (new_cases values) as [-> | ->]; [reflexivity |].
  assert (Hown : own_enumerable values = ∅)
    by (destruct values; simpl in H; subst; reflexivity).
  rewrite Hown. by rewrite (left_id_L ∅ (∪)).
Qed.

(** X5: building a [SecurityConfig] from a [SecurityConfig] copies it:
    [new SecurityConfig(new SecurityConfig(values))] has the fields of
    [new SecurityConfig(values)]. *)
Theorem new_of_instance_is_copy (values : JsValue) :
  SecurityConfig.new (JObj (SecurityConfig.new values))
  = SecurityConfig.new values.
Proof.
  rewrite new_object.
  destruct (new_cases values) as [-> | ->].
  - by rewrite (idemp_L (∪)).
  - by rewrite <- (assoc_L (∪)), (idemp_L (∪)).
Qed.


(** X7: [getDelegatedAccountName] throws exactly when the
    [centralSecurityServices] of the instance is [undefined] or [null],
    what it throws is a [TypeError], and it returns in every other
    case. *)
Theorem getDelegatedAccountName_throws_iff_nullish
    (this : JsObject) (log : list LogEntry) :
  ((∃ e, fst (SecurityConfig.getDelegatedAccountName this log) = Thrown e)
   ↔ nullish (field (JObj this) "centralSecurityServices"))
  ∧ (∀ e, fst (SecurityConfig.getDelegatedAccountName this log) = Thrown e →
       name e = "TypeError")
  ∧ (¬ nullish (field (JObj this) "centralSecurityServices") →
     SecurityConfig.getDelegatedAccountName this log
     = (Normal (field_path (JObj this)
                  ["centralSecurityServices"; "delegatedAdminAccount"]), log)).
Proof.
  rewrite getDelegatedAccountName_run. unfold nullish, field_path. cbn [foldl].
  destruct (field (JObj this) "centralSecurityServices") eqn:E; simpl.
  1, 2: split; [split; [intros _; by (left + right) | eauto] | split];
        [by intros e [= <-] | intros H; exfalso; apply H; by (left + right)].
  all: split; [split; [intros [e He] | intros [H | H]]; discriminate | split];
       [discriminate | reflexivity].
Qed.

(** X8: the default administrator account survives only when the whole
    section is left out.  Built from values without
    [centralSecurityServices], the instance answers 'Audit'; built from
    values that bring the section, it answers with what the section
    holds, [undefined] when the section has no administrator account. *)
Theorem delegated_account_after_new (values central : JsObject)
    (log : list LogEntry) :
  (values !! "centralSecurityServices" = None →
   SecurityConfig.getDelegatedAccountName
     (SecurityConfig.new (JObj values)) log
   = (Normal (JStr "Audit"), log))
  ∧ (values !! "centralSecurityServices" = Some (JObj central) →
     SecurityConfig.getDelegatedAccountName
       (SecurityConfig.new (JObj values)) log
     = (Normal (default JUndefined (central !! "delegatedAdminAccount")), log)).
Proof.
  rewrite getDelegatedAccountName_run, new_object.
  split; intros H; unfold field at 1.
  - by rewrite (lookup_union_r _ _ _ H).
  - by rewrite (lookup_union_Some_l _ _ _ _ H).
Qed.

(* ===================================================================== *)
(** ** What a loaded configuration holds *)

(** An accepted non-empty string is a string with a character in it. *)
Lemma validate_nonEmptyString path u :
  t.validate t.nonEmptyString path u = [] → ∃ s, u = JStr s ∧ s ≠ "".
Proof.
  destruct u; simpl; intros H; try discriminate.
  destruct (decide (s = "")); [discriminate | eauto].
Qed.

(** A field that reads as an object is a property holding that object. *)
Lemma field_object_lookup (fields inner : JsObject) (k : string) :
  field (JObj fields) k = JObj inner → fields !! k = Some (JObj inner).
Proof.
  unfold field. destruct (fields !! k) as [v |]; simpl; [by intros -> | discriminate].
Qed.

(** What [loadFromString] returns, under [t.parse], is the instance built
    from the very document that [yaml.load] produced, and the schema
    accepts that document. *)
Lemma loadFromString_returns_document ct yaml_load content document config log :
  yaml_load content = inr document →
  fst (SecurityConfig.loadFromString yaml_load t.parse ct content log)
  = Normal (Some config) →
  t.validate (SecurityConfigTypes.securityConfig ct) "" document = []
  ∧ config = SecurityConfig.new document.
Proof.
  intros Hload Hrun.
  assert (Hparsed : SecurityConfig.parsed yaml_load t.parse ct content
                    = t.parse (SecurityConfigTypes.securityConfig ct) document).
  { unfold SecurityConfig.parsed. by rewrite Hload. }
  destruct (t.parse (SecurityConfigTypes.securityConfig ct) document)
    as [e | values] eqn:Hp.
  - rewrite (loadFromString_parsed_error _ _ _ _ _ log Hparsed) in Hrun.
    discriminate.
  - rewrite (loadFromString_parsed_ok _ _ _ _ _ log Hparsed) in Hrun.
    apply parse_ok_validate in Hp as [Hvalid ->].
    by injection Hrun as <-.
Qed.

(** X9: on a configuration that [loadFromString] has returned,
    [getDelegatedAccountName] does not throw: it returns the
    [delegatedAdminAccount] written in the document, which is a string
    with at least one character. *)
Theorem loaded_delegated_account ct yaml_load content document config log log' :
  yaml_load content = inr document →
  fst (SecurityConfig.loadFromString yaml_load t.parse ct content log)
  = Normal (Some config) →
  ∃ account,
    account ≠ ""
    ∧ field_path document ["centralSecurityServices"; "delegatedAdminAccount"]
      = JStr account
    ∧ SecurityConfig.getDelegatedAccountName config log'
      = (Normal (JStr account), log').
Proof.
  intros Hload Hrun.
  destruct (loadFromString_returns_document _ _ _ _ _ _ Hload Hrun)
    as [Hvalid ->].
  destruct (validate_interface_object _ _ _ Hvalid) as [fields ->].
  eapply validate_interface_field with
    (k := "centralSecurityServices")
    (c := SecurityConfigTypes.centralSecurityServicesConfig ct) in Hvalid;
    [| declared_field].
  destruct (validate_interface_object _ _ _ Hvalid) as [central Hcentral].
  eapply validate_interface_field with
    (k := "delegatedAdminAccount") (c := t.nonEmptyString) in Hvalid;
    [| declared_field].
  apply validate_nonEmptyString in Hvalid as (account & Haccount & Hne).
  exists account. split; [exact Hne | split; [exact Haccount |]].
  rewrite getDelegatedAccountName_run, new_object.
  apply field_object_lookup in Hcentral as Hlookup.
  unfold field at 1. rewrite (lookup_union_Some_l _ _ _ _ Hlookup).
  change (get_property (JObj central) "delegatedAdminAccount" log'
          = (Normal (JStr account), log')).
  unfold field_path in Haccount. cbn [foldl] in Haccount.
  rewrite Hcentral in Haccount.
  cbn [get_property]. by rewrite Haccount.
Qed.

Section MoreEnumerations.
Context (ct : t.CommonTypes).

(** X10: the schema pins the export of GuardDuty findings: a document
    that [t.parse] accepts against [securityConfig] has
    [guardduty.exportConfiguration.destinationType] equal to 'S3' and an
    [exportFrequency] among FIFTEEN_MINUTES, ONE_HOUR and SIX_HOURS. *)
Theorem schema_pins_guardduty_export document values :
  t.parse (SecurityConfigTypes.securityConfig ct) document = inr values →
  guardduty_export_in_enum document.
Proof.
  intros [H _]%parse_ok_validate.
  eapply validate_interface_field with
    (k := "centralSecurityServices")
    (c := SecurityConfigTypes.centralSecurityServicesConfig ct) in H;
    [| declared_field].
  eapply validate_interface_field with
    (k := "guardduty") (c := SecurityConfigTypes.guardDutyConfig ct) in H;
    [| declared_field].
  eapply validate_interface_field with
    (k := "exportConfiguration")
    (c := SecurityConfigTypes.guardDutyExportFindingsConfig) in H;
    [| declared_field].
  split.
  - eapply validate_interface_field with
      (k := "destinationType") (c := t.enums "DestinationType" ["S3"]) in H;
      [| declared_field].
    apply validate_enums_member in H as (s & Hs & Hin).
    apply list_elem_of_In in Hin. cbn [In] in Hin.
    destruct Hin as [<- | []]. exact Hs.
  - eapply validate_interface_field with
      (k := "exportFrequency")
      (c := t.enums "ExportFrequencyType" ExportFrequencyType) in H;
      [| declared_field].
    apply validate_enums_member in H as (f & Hf & Hin). eauto.
Qed.

(** X11: the instance of [new SecurityConfig()] conforms to the schema
    of the class, whatever the shared codecs are: [t.parse] accepts it
    against [securityConfig] and hands it back. *)
Theorem default_instance_conforms :
  t.parse (SecurityConfigTypes.securityConfig ct)
    (JObj (SecurityConfig.new JUndefined))
  = inr (JObj (SecurityConfig.new JUndefined)).
Proof. reflexivity. Qed.

End MoreEnumerations.

(* ===================================================================== *)
(** ** What the schema leaves open *)


(** An object is accepted by an interface when each declared field is. *)
Lemma validate_interface_intro props path (fields : JsObject) :
  (∀ k c, (k, c) ∈ props →
     t.validate c (path ++ "/" ++ k) (field (JObj fields) k) = []) →
  t.validate (t.interface props) path (JObj fields) = [].
Proof.
  cbn [t.validate]. induction props as [| [k c] props IH]; intros H.
  - reflexivity.
  - cbn [map concat fst snd]. rewrite (H k c) by apply list_elem_of_here.
    apply IH. intros k' c' Hin. apply H. by apply list_elem_of_further.
Qed.

(** Setting a property of an accepted object to a value that every codec
    declared under that name accepts keeps the object accepted; so does
    setting a property that the interface does not declare. *)
Lemma validate_interface_insert props path (fields : JsObject) k v :
  t.validate (t.interface props) path (JObj fields) = [] →
  (∀ c, (k, c) ∈ props → t.validate c (path ++ "/" ++ k) v = []) →
  t.validate (t.interface props) path (JObj (<[k := v]> fields)) = [].
Proof.
  intros Hvalid Hk. apply validate_interface_intro. intros k' c' Hin.
  unfold field. rewrite lookup_insert.
  destruct (decide (k = k')) as [<- | Hne].
  - by apply Hk.
  - exact (validate_interface_field _ _ _ _ _ Hvalid Hin).
Qed.

(** Updating a section that an accepted document holds, so that the
    section is still accepted, keeps the document accepted. *)
Lemma validate_with_section_field props path document section c k v inner :
  t.validate (t.interface props) path document = [] →
  (∀ c', (section, c') ∈ props → c' = c) →
  field document section = JObj inner →
  t.validate c (path ++ "/" ++ section) (JObj (<[k := v]> inner)) = [] →
  t.validate (t.interface props) path (with_section_field document section k v) = [].
Proof.
  intros Hvalid Hc Hfield Hinner.
  destruct (validate_interface_object _ _ _ Hvalid) as [fields ->].
  apply field_object_lookup in Hfield as Hlookup.
  unfold with_section_field. rewrite Hlookup.
  apply validate_interface_insert; [exact Hvalid |].
  intros c' Hin. by rewrite (Hc c' Hin).
Qed.

(** Picks the one codec declared under a name in a property list. *)
Ltac only_codec :=
  let c := fresh "c" in
  let H := fresh "H" in
  intros c H; apply list_elem_of_In in H; cbn [In] in H;
  repeat (destruct H as [H | H];
          [first [discriminate H | by injection H as <-] |]);
  destruct H.

Section OpenEnds.
Context (ct : t.CommonTypes).


(** X13: the schema puts no bound on the password policy numbers: in a
    document that [t.parse] accepts, [minimumPasswordLength],
    [passwordReusePrevention] or [maxPasswordAge] can be set to any
    number, negative, fractional or NaN, and the document is still
    accepted. *)
Theorem schema_leaves_policy_numbers_unbounded document values k n :
  t.parse (SecurityConfigTypes.securityConfig ct) document = inr values →
  k ∈ numericPolicyFields →
  let document' := with_section_field document "iamPasswordPolicy" k (JNum n) in
  t.parse (SecurityConfigTypes.securityConfig ct) document' = inr document'.
Proof.
  intros [H _]%parse_ok_validate Hk. cbv zeta.
  assert (Hpolicy := H).
  eapply validate_interface_field with
    (k := "iamPasswordPolicy")
    (c := SecurityConfigTypes.iamPasswordPolicyConfig) in Hpolicy;
    [| declared_field].
  destruct (validate_interface_object _ _ _ Hpolicy) as [policy Hfield].
  rewrite Hfield in Hpolicy.
  unfold t.parse.
  rewrite (validate_with_section_field _ _ _ _
             SecurityConfigTypes.iamPasswordPolicyConfig k (JNum n) policy H);
    [reflexivity | only_codec | exact Hfield |].
  apply validate_interface_insert; [exact Hpolicy |].
  apply list_elem_of_In in Hk. cbn [In numericPolicyFields] in Hk.
  destruct Hk as [<- | [<- | [<- | []]]]; only_codec.
Qed.

(** X14: the schema tolerates properties it does not declare: the
    deprecated [snsSubscriptions], which the class
    [CentralSecurityServicesConfig] still initialises and the schema no
    longer lists, can be given any value in an accepted document, and the
    document is still accepted. *)
Theorem schema_tolerates_snsSubscriptions document values v :
  t.parse (SecurityConfigTypes.securityConfig ct) document = inr values →
  let document' :=
    with_section_field document "centralSecurityServices" "snsSubscriptions" v in
  t.parse (SecurityConfigTypes.securityConfig ct) document' = inr document'.
Proof.
  intros [H _]%parse_ok_validate. cbv zeta.
  assert (Hcentral := H).
  eapply validate_interface_field with
    (k := "centralSecurityServices")
    (c := SecurityConfigTypes.centralSecurityServicesConfig ct) in Hcentral;
    [| declared_field].
  destruct (validate_interface_object _ _ _ Hcentral) as [central Hfield].
  rewrite Hfield in Hcentral.
  unfold t.parse.
  rewrite (validate_with_section_field _ _ _ _
             (SecurityConfigTypes.centralSecurityServicesConfig ct)
             "snsSubscriptions" v central H);
    [reflexivity | only_codec | exact Hfield |].
  apply validate_interface_insert; [exact Hcentral | only_codec].
Qed.

End OpenEnds.

(* ===================================================================== *)
(** ** The further theorems at work on the test bench *)

Lemma load_agrees_with_loadFromString_witness :
  (∀ config,
     fst (Bench.load "/config" []) = Normal config
     ↔ fst (Bench.loadFromString Bench.valid_yaml []) = Normal (Some config))
  ∧ ((∃ e, fst (Bench.load "/config" []) = Thrown e)
     ↔ (∃ e, fst (Bench.loadFromString Bench.valid_yaml []) = Thrown e)).
Proof.
  apply (load_agrees_with_loadFromString
           Bench.readFileSync Bench.join Bench.yaml_load t.parse Bench.commonTypes
           "/config" Bench.valid_yaml [] []).
  reflexivity.
Defined.

Lemma load_never_logs_witness :
  Bench.readFileSync (Bench.join "/nowhere" SecurityConfig.FILENAME)
  = inl (Error "ENOENT: no such file or directory, open '/nowhere/security-config.yaml'")
  ∨ ∃ content,
      Bench.readFileSync (Bench.join "/nowhere" SecurityConfig.FILENAME) = inr content
      ∧ SecurityConfig.parsed Bench.yaml_load t.parse Bench.commonTypes content
        = inl (Error "ENOENT: no such file or directory, open '/nowhere/security-config.yaml'").
Proof.
  apply (proj2 (load_never_logs
                  Bench.readFileSync Bench.join Bench.yaml_load t.parse
                  Bench.commonTypes "/nowhere" [])).
  reflexivity.
Defined.

Lemma loadFromString_logs_iff_throws_witness :
  length (snd (Bench.loadFromString Bench.daily_yaml [])) = length ([] : list LogEntry) + 2
  ∧ snd (Bench.loadFromString Bench.valid_yaml []) = [].
Proof.
  pose proof (loadFromString_logs_iff_throws
                Bench.yaml_load t.parse Bench.commonTypes Bench.daily_yaml [])
    as (_ & Hthrow & _).
  pose proof (loadFromString_logs_iff_throws
                Bench.yaml_load t.parse Bench.commonTypes Bench.valid_yaml [])
    as (Hreturn & _ & _).
  split.
  - apply (proj1 Hthrow). eexists. reflexivity.
  - apply (proj1 Hreturn). eexists. reflexivity.
Defined.

Lemma new_without_properties_witness :
  SecurityConfig.new (JBool true) = SecurityConfig.new JUndefined
  ∧ SecurityConfig.new (JNum 90) = SecurityConfig.new JUndefined
  ∧ SecurityConfig.new (JArr []) = SecurityConfig.new JUndefined.
Proof.
  split; [| split].
  - apply (new_without_properties (JBool true)). exact I.
  - apply (new_without_properties (JNum 90)). exact I.
  - apply (new_without_properties (JArr [])). reflexivity.
Defined.


Lemma getDelegatedAccountName_throws_iff_nullish_witness :
  (∃ e, fst (SecurityConfig.getDelegatedAccountName
               (SecurityConfig.new (JObj Cases.null_central)) []) = Thrown e)
  ∧ SecurityConfig.getDelegatedAccountName
      (SecurityConfig.new (JObj Cases.bare_central)) []
    = (Normal JUndefined, []).
Proof.
  split.
  - apply (proj2 (proj1 (getDelegatedAccountName_throws_iff_nullish
                           (SecurityConfig.new (JObj Cases.null_central)) []))).
    right. reflexivity.
  - apply (proj2 (proj2 (getDelegatedAccountName_throws_iff_nullish
                           (SecurityConfig.new (JObj Cases.bare_central)) []))).
    intros [H | H]; discriminate H.
Defined.

Lemma delegated_account_after_new_witness :
  SecurityConfig.getDelegatedAccountName
    (SecurityConfig.new (JObj Cases.only_analyzer)) []
  = (Normal (JStr "Audit"), [])
  ∧ SecurityConfig.getDelegatedAccountName
      (SecurityConfig.new (JObj Cases.bare_central)) []
    = (Normal (default JUndefined (Cases.macie_only !! "delegatedAdminAccount")), [])
  ∧ default JUndefined (Cases.macie_only !! "delegatedAdminAccount") = JUndefined.
Proof.
  split; [| split].
  - apply (proj1 (delegated_account_after_new Cases.only_analyzer ∅ [])).
    reflexivity.
  - apply (proj2 (delegated_account_after_new Cases.bare_central
                    Cases.macie_only [])).
    reflexivity.
  - reflexivity.
Defined.

Lemma loaded_delegated_account_witness :
  ∃ account,
    account ≠ ""
    ∧ field_path Bench.valid_document
        ["centralSecurityServices"; "delegatedAdminAccount"] = JStr account
    ∧ SecurityConfig.getDelegatedAccountName
        (SecurityConfig.new Bench.valid_document) []
      = (Normal (JStr account), []).
Proof.
  apply (loaded_delegated_account Bench.commonTypes Bench.yaml_load
           Bench.valid_yaml Bench.valid_document
           (SecurityConfig.new Bench.valid_document) [] []).
  - reflexivity.
  - reflexivity.
Defined.

Lemma schema_pins_guardduty_export_witness :
  guardduty_export_in_enum Bench.valid_document.
Proof.
  apply (schema_pins_guardduty_export Bench.commonTypes
           Bench.valid_document Bench.valid_document).
  reflexivity.
Defined.


Lemma schema_leaves_policy_numbers_unbounded_witness :
  t.parse (SecurityConfigTypes.securityConfig Bench.commonTypes)
    (with_section_field Bench.valid_document
       "iamPasswordPolicy" "minimumPasswordLength" (JNum (-1)))
  = inr (with_section_field Bench.valid_document
           "iamPasswordPolicy" "minimumPasswordLength" (JNum (-1))).
Proof.
  apply (schema_leaves_policy_numbers_unbounded Bench.commonTypes
           Bench.valid_document Bench.valid_document
           "minimumPasswordLength" (-1)%float).
  - reflexivity.
  - apply list_elem_of_In. simpl. tauto.
Defined.

Lemma schema_tolerates_snsSubscriptions_witness :
  t.parse (SecurityConfigTypes.securityConfig Bench.commonTypes)
    (with_section_field Bench.valid_document
       "centralSecurityServices" "snsSubscriptions" (JArr []))
  = inr (with_section_field Bench.valid_document
           "centralSecurityServices" "snsSubscriptions" (JArr [])).
Proof.
  apply (schema_tolerates_snsSubscriptions Bench.commonTypes
           Bench.valid_document Bench.valid_document (JArr [])).
  reflexivity.
Defined.
